(** * The native (getaddrinfo-based) DNS resolver of gRPC core

    A shallow embedding of [src/core/lib/iomgr/resolve_address_posix.cc]:
    the blocking lookup [NativeDNSResolver::LookupHostnameBlocking], the
    asynchronous entry points that hand a work item to the event engine,
    and [Cancel].

    The C library ([getaddrinfo], [freeaddrinfo], [gai_strerror]), the
    event engine and the user callbacks are effects.  They are modelled by
    explicit state passing over a [World] that holds the state of the OS
    resolver, the queue of work items given to the event engine, and the
    trace of the observable events (OS calls and callback invocations). *)

From Stdlib Require Import String Ascii ZArith List Bool Lia.
From Stdlib.Strings Require Import Byte.
Import ListNotations.

Local Open Scope string_scope.
Local Open Scope Z_scope.
Local Open Scope list_scope.

(** ** Status values *)

(** [absl::StatusCode], the three codes this file produces. *)
Inductive StatusCode : Type :=
| kOk
| kUnknown
| kUnimplemented.

(** [grpc_core::StatusIntProperty], the key this file sets. *)
Inductive StatusIntProperty : Type :=
| kErrorNo.

(** [grpc_core::StatusStrProperty], the keys this file sets. *)
Inductive StatusStrProperty : Type :=
| kOsError
| kSyscall
| kTargetAddress.

Definition StatusIntProperty_eqb (a b : StatusIntProperty) : bool :=
  match a, b with
  | kErrorNo, kErrorNo => true
  end.

Definition StatusStrProperty_eqb (a b : StatusStrProperty) : bool :=
  match a, b with
  | kOsError, kOsError => true
  | kSyscall, kSyscall => true
  | kTargetAddress, kTargetAddress => true
  | _, _ => false
  end.

(** Modelled from the spec: [grpc_error_handle] (an [absl::Status]) is
    declared in [src/core/lib/iomgr/error.h], which is not among the
    sources.  The spec (section 3) describes it as a message and a
    mapping of named properties to values. *)
Record Status : Type := mkStatus {
  status_code : StatusCode;
  status_message : string;
  status_ints : list (StatusIntProperty * Z);
  status_strs : list (StatusStrProperty * string)
}.

Definition Status_ok (st : Status) : bool :=
  match status_code st with
  | kOk => true
  | _ => false
  end.

(** [absl::OkStatus()] *)
Definition OkStatus : Status := mkStatus kOk "" [] [].

(** [absl::UnimplementedError(message)] *)
Definition UnimplementedError (message : string) : Status :=
  mkStatus kUnimplemented message [] [].

(** Modelled from the spec: the macro [GRPC_ERROR_CREATE] of [error.h]
    (not among the sources) builds a non-OK structured error with the given
    message and no property. *)
Definition GRPC_ERROR_CREATE (desc : string) : Status :=
  mkStatus kUnknown desc [] [].

(** Modelled from the spec: [grpc_error_set_int] of [error.h] (not among the
    sources) binds the named integer property of the error to [value]. *)
Definition grpc_error_set_int
    (src : Status) (which : StatusIntProperty) (value : Z) : Status :=
  mkStatus (status_code src) (status_message src)
    ((which, value)
       :: filter (fun kv => negb (StatusIntProperty_eqb (fst kv) which))
            (status_ints src))
    (status_strs src).

(** Modelled from the spec: [grpc_error_set_str] of [error.h] (not among the
    sources) binds the named string property of the error to [str]. *)
Definition grpc_error_set_str
    (src : Status) (which : StatusStrProperty) (str : string) : Status :=
  mkStatus (status_code src) (status_message src)
    (status_ints src)
    ((which, str)
       :: filter (fun kv => negb (StatusStrProperty_eqb (fst kv) which))
            (status_strs src)).

(** Reading a property back ([grpc_error_get_int], [grpc_error_get_str]). *)
Definition grpc_error_get_int
    (err : Status) (which : StatusIntProperty) : option Z :=
  match find (fun kv => StatusIntProperty_eqb (fst kv) which)
             (status_ints err) with
  | Some kv => Some (snd kv)
  | None => None
  end.

Definition grpc_error_get_str
    (err : Status) (which : StatusStrProperty) : option string :=
  match find (fun kv => StatusStrProperty_eqb (fst kv) which)
             (status_strs err) with
  | Some kv => Some (snd kv)
  | None => None
  end.

(** Modelled from the spec: [grpc_error_to_absl_status] is defined in
    [src/core/lib/transport/error_utils.cc], which is not among the sources.
    The spec (sections 3 and 7) has the structured error, with its message
    and its properties, surfaced to the caller through the result; a
    [grpc_error_handle] being an [absl::Status], the conversion hands the
    error over as it is. *)
Definition grpc_error_to_absl_status (error : Status) : Status := error.

(** [absl::StatusOr<T>] *)
Inductive StatusOr (T : Type) : Type :=
| Ok (value : T)
| Err (status : Status).

Arguments Ok {T} value.
Arguments Err {T} status.

(** ** Socket addresses *)

(** [struct addrinfo] of the C library.  [ai_next] is the spine of the Rocq
    list that holds the entries; a null list pointer is [nil].  [ai_addr]
    holds the bytes the pointer of that name points to. *)
Record addrinfo : Type := mkAddrinfo {
  ai_flags : Z;
  ai_family : Z;
  ai_socktype : Z;
  ai_protocol : Z;
  ai_addrlen : nat;
  ai_addr : list byte
}.

(** Values of the C library's constants on Linux. *)
Definition AF_UNSPEC : Z := 0.
Definition SOCK_STREAM : Z := 1.
Definition AI_PASSIVE : Z := 1.

(** [memset(&hints, 0, sizeof(hints))] followed by the three assignments of
    lines 109-111. *)
Definition zeroed_addrinfo : addrinfo := mkAddrinfo 0 0 0 0 0%nat [].

Definition lookup_hints : addrinfo :=
  let hints := zeroed_addrinfo in
  let hints := mkAddrinfo (ai_flags hints) AF_UNSPEC (ai_socktype hints)
                 (ai_protocol hints) (ai_addrlen hints) (ai_addr hints) in
  let hints := mkAddrinfo (ai_flags hints) (ai_family hints) SOCK_STREAM
                 (ai_protocol hints) (ai_addrlen hints) (ai_addr hints) in
  mkAddrinfo AI_PASSIVE (ai_family hints) (ai_socktype hints)
    (ai_protocol hints) (ai_addrlen hints) (ai_addr hints).

(** Modelled from the spec: the capacity of the buffer of a
    [grpc_resolved_address] is the constant [GRPC_MAX_SOCKADDR_SIZE] of
    [src/core/lib/iomgr/resolve_address.h], which is not among the sources.
    The spec (section 3) has a fixed capacity; 128 is the size of the C
    library's [sockaddr_storage] on Linux. *)
Definition GRPC_MAX_SOCKADDR_SIZE : nat := 128.

(** [grpc_resolved_address]: the buffer [addr], of [GRPC_MAX_SOCKADDR_SIZE]
    bytes, and the occupied length.  A byte that was never written is
    indeterminate: [None]. *)
Record grpc_resolved_address : Type := mkResolved {
  addr : list (option byte);
  len : nat
}.

(** The buffer of a [grpc_resolved_address] declared without an
    initialiser. *)
Definition indeterminate_buffer : list (option byte) :=
  repeat None GRPC_MAX_SOCKADDR_SIZE.

(** [memcpy(dst, src, n)] is defined when [dst] and [src] both hold [n]
    bytes; it has no meaning otherwise, and a caller has to show that it
    stays within bounds.  The first [n] bytes of [dst] are replaced by the
    first [n] bytes of [src]. *)
Definition memcpy (dst : list (option byte)) (src : list byte) (n : nat)
    (within : (n <=? length dst)%nat && (n <=? length src)%nat = true)
    : list (option byte) :=
  map Some (firstn n src) ++ skipn n dst.

(** What the C library promises of an entry it hands out: [ai_addr] points
    to [ai_addrlen] bytes, and an address is no longer than a
    [sockaddr_storage]. *)
Definition fits (info : addrinfo) : bool :=
  (ai_addrlen info <=? length indeterminate_buffer)%nat
  && (ai_addrlen info <=? length (ai_addr info))%nat.

(** An entry of a list handed out by [getaddrinfo]. *)
Record gai_entry : Type := mkEntry {
  entry_info :> addrinfo;
  entry_fits : fits entry_info = true
}.

(** [std::string::c_str()] read as a C string: the characters before the
    first NUL. *)
Fixpoint c_str (s : string) : string :=
  match s with
  | EmptyString => EmptyString
  | String c rest =>
      if Ascii.eqb c zero then EmptyString else String c (c_str rest)
  end.

(** [std::string::empty()] *)
Definition empty (s : string) : bool :=
  match s with
  | EmptyString => true
  | String _ _ => false
  end.

(** [DNSResolver::TaskHandle], a pair of [intptr_t] keys. *)
Record TaskHandle : Type := mkHandle {
  key0 : Z;
  key1 : Z
}.

(** ** The environment *)

(** What one call of the C library's [getaddrinfo] answers: the return
    code, and what it stored through the [res] out-parameter ([None] when it
    left the caller's pointer untouched, [Some nil] for a null pointer). *)
Record gai_reply : Type := mkReply {
  gai_rc : Z;
  gai_res : option (list gai_entry)
}.

(** The parts of the platform and of the rest of gRPC core that the file
    uses and does not define. *)
Class Platform : Type := {
  (** the state of the operating system's resolver *)
  OsState : Type;
  (** [getaddrinfo(node, service, hints, res)] *)
  os_getaddrinfo : string -> string -> addrinfo -> OsState -> gai_reply * OsState;
  (** [gai_strerror(errcode)] *)
  gai_strerror : Z -> string;
  (** [grpc_core::SplitHostPort(name, &host, &port)] of
      [src/core/lib/gprpp/host_port.h]: the returned flag, and the values of
      [host] and [port] after the call (both are empty before it). *)
  SplitHostPort : string -> bool * (string * string);
  (** [DNSResolver::kNullHandle] of [src/core/lib/iomgr/resolve_address.h] *)
  kNullHandle : TaskHandle
}.

(** A [std::function] callback handed to the resolver, known by its
    identity. *)
Definition Callback : Type := nat.

(** The closures given to [EventEngine::Run], with what they capture. *)
Inductive WorkItem : Type :=
| NativeDNSRequestItem (name default_port : string) (on_done : Callback)
| LookupSRVItem (on_resolved : Callback)
| LookupTXTItem (on_resolved : Callback).

(** The observable events. *)
Inductive Event : Type :=
| EvGetaddrinfo (node service : string) (hints : addrinfo) (reply : gai_reply)
| EvFreeaddrinfo (res : list gai_entry)
| EvAddressesCallback (cb : Callback)
    (arg : StatusOr (list grpc_resolved_address))
| EvStringCallback (cb : Callback) (arg : StatusOr string).

Section WorldAndMonad.
Context `{Platform}.

Record World : Type := mkWorld {
  w_os : OsState;
  w_pending : list WorkItem;
  w_trace : list Event
}.

(** Computations that read and change the world. *)
Definition M (A : Type) : Type := World -> A * World.

Definition ret {A : Type} (a : A) : M A := fun w => (a, w).

Definition bind {A B : Type} (m : M A) (k : A -> M B) : M B :=
  fun w => let (a, w') := m w in k a w'.

Definition emit (e : Event) : M unit :=
  fun w => (tt, mkWorld (w_os w) (w_pending w) (w_trace w ++ [e])).
End WorldAndMonad.

Notation "x <- m ;; k" := (bind m (fun x => k))
  (at level 61, m at next level, right associativity).
Notation "' pat <- m ;; k" := (bind m (fun x => match x with pat => k end))
  (at level 61, pat pattern, m at next level, right associativity).
Notation "m ;;; k" := (bind m (fun _ => k))
  (at level 61, right associativity).

Section Effects.
Context `{Platform}.

(** A call of [getaddrinfo] with [&result] as its last argument, where the
    local [result] holds [res] before the call: the return code and the
    value of [result] after the call. *)
Definition getaddrinfo (node service : string) (hints : addrinfo)
    (res : list gai_entry) : M (Z * list gai_entry) :=
  fun w =>
    let (reply, os') := os_getaddrinfo node service hints (w_os w) in
    let res' := match gai_res reply with
                | Some stored => stored
                | None => res
                end in
    ((gai_rc reply, res'),
     mkWorld os' (w_pending w)
       (w_trace w ++ [EvGetaddrinfo node service hints reply])).

(** [freeaddrinfo(res)] *)
Definition freeaddrinfo (res : list gai_entry) : M unit :=
  emit (EvFreeaddrinfo res).

(** [GetDefaultEventEngine()->Run(closure)]: the closure joins the work
    items the engine will run later. *)
Definition EventEngine_Run (item : WorkItem) : M unit :=
  fun w => (tt, mkWorld (w_os w) (w_pending w ++ [item]) (w_trace w)).

(** Calling a [std::function] callback. *)
Definition call_addresses_callback (cb : Callback)
    (arg : StatusOr (list grpc_resolved_address)) : M unit :=
  emit (EvAddressesCallback cb arg).

Definition call_string_callback (cb : Callback)
    (arg : StatusOr string) : M unit :=
  emit (EvStringCallback cb arg).
End Effects.

(** The virtual method of the [DNSResolver] interface that
    [NativeDNSRequest] reaches through [GetDNSResolver()]. *)
Record DNSResolver `{Platform} : Type := mkDNSResolver {
  DNSResolver_LookupHostnameBlocking :
    string -> string -> M (StatusOr (list grpc_resolved_address))
}.

Arguments mkDNSResolver {_} _.

Module NativeDNSResolver.
Section WithPlatform.
Context `{Platform}.

(** The table [svc] of line 117. *)
Definition svc : list (string * string) :=
  [("http", "80"); ("https", "443")].

(** The loop of lines 118-125 over the remaining rows of [svc]: the first
    row whose name equals [port] gives one more call of [getaddrinfo] and
    ends the loop. *)
Fixpoint retry_well_known (rows : list (string * string))
    (host port : string) (hints : addrinfo)
    (s : Z) (result : list gai_entry) : M (Z * list gai_entry) :=
  match rows with
  | [] => ret (s, result)
  | row :: rest =>
      if String.eqb port (fst row) then
        getaddrinfo (c_str host) (snd row) hints result
      else
        retry_well_known rest host port hints s result
  end.

(** Lines 113-126: the call of [getaddrinfo] and, when it fails, the
    retry. [result] is null before the first call. *)
Definition getaddrinfo_with_retry (host port : string) (hints : addrinfo)
    : M (Z * list gai_entry) :=
  '(s, result) <- getaddrinfo (c_str host) (c_str port) hints [] ;;
  if negb (s =? 0) then retry_well_known svc host port hints s result
  else ret (s, result).

(** The body of the loop of lines 139-144 for one entry: [addr] is declared
    without an initialiser, [memcpy] fills the first [ai_addrlen] bytes of
    its buffer, and [len] is set.  The copy stays within bounds for an
    entry of the C library. *)
Definition resolved_address_of (resp : gai_entry) : grpc_resolved_address :=
  let buffer := indeterminate_buffer in
  let buffer :=
    memcpy buffer (ai_addr resp) (ai_addrlen resp) (entry_fits resp) in
  mkResolved buffer (ai_addrlen resp).

(** The loop of lines 139-144. *)
Fixpoint fill_addrs (resp : list gai_entry)
    (addresses : list grpc_resolved_address) : list grpc_resolved_address :=
  match resp with
  | [] => addresses
  | entry :: next => fill_addrs next (addresses ++ [resolved_address_of entry])
  end.

(** The label [done] of line 146 and what follows it. *)
Definition done (result : list gai_entry) (err : Status)
    (addresses : list grpc_resolved_address)
    : M (StatusOr (list grpc_resolved_address)) :=
  (match result with
   | [] => ret tt
   | _ :: _ => freeaddrinfo result
   end) ;;;
  if Status_ok err then ret (Ok addresses)
  else ret (Err (grpc_error_to_absl_status err)).

(** The error of lines 128-135. *)
Definition getaddrinfo_error (s : Z) (name : string) : Status :=
  grpc_error_set_str
    (grpc_error_set_str
       (grpc_error_set_str
          (grpc_error_set_int (GRPC_ERROR_CREATE (gai_strerror s))
             kErrorNo s)
          kOsError (gai_strerror s))
       kSyscall "getaddrinfo")
    kTargetAddress name.

(** Lines 107-155, once [port] holds its final value. *)
Definition resolve_with_port (name host port : string)
    : M (StatusOr (list grpc_resolved_address)) :=
  let hints := lookup_hints in
  '(s, result) <- getaddrinfo_with_retry host port hints ;;
  if negb (s =? 0) then done result (getaddrinfo_error s name) []
  else done result OkStatus (fill_addrs result []).

(** [NativeDNSResolver::LookupHostnameBlocking], lines 80-155.  [host] and
    [port] are empty and [result] is null when [SplitHostPort] is called.
    The [ExecCtx] object and the two blocking-region macros belong to the
    runtime around the resolver and leave the world as it is. *)
Definition LookupHostnameBlocking (name default_port : string)
    : M (StatusOr (list grpc_resolved_address)) :=
  let '(_, (host, port)) := SplitHostPort name in
  if empty host then
    done []
      (grpc_error_set_str (GRPC_ERROR_CREATE "unparseable host:port")
         kTargetAddress name)
      []
  else if empty port then
    if empty default_port then
      done []
        (grpc_error_set_str (GRPC_ERROR_CREATE "no port in name")
           kTargetAddress name)
        []
    else resolve_with_port name host default_port
  else resolve_with_port name host port.

(** [GetDNSResolver()], the resolver registered for the process
    ([src/core/lib/iomgr/resolve_address.h]). *)
Variable GetDNSResolver : DNSResolver.

(** [NativeDNSRequest], lines 50-65. *)
Definition NativeDNSRequest (name default_port : string)
    (on_done : Callback) : M unit :=
  EventEngine_Run (NativeDNSRequestItem name default_port on_done).

(** [NativeDNSResolver::LookupHostname], lines 69-78.  [timeout],
    [interested_parties] and [name_server] are unnamed parameters. *)
Definition LookupHostname (on_done : Callback) (name default_port : string)
    (timeout : Z) (interested_parties : option nat) (name_server : string)
    : M TaskHandle :=
  NativeDNSRequest name default_port on_done ;;;
  ret kNullHandle.

(** [NativeDNSResolver::LookupSRV], lines 157-170. *)
Definition LookupSRV (on_resolved : Callback) (name : string)
    (timeout : Z) (interested_parties : option nat) (name_server : string)
    : M TaskHandle :=
  EventEngine_Run (LookupSRVItem on_resolved) ;;;
  ret (mkHandle (-1) (-1)).

(** [NativeDNSResolver::LookupTXT], lines 172-185. *)
Definition LookupTXT (on_resolved : Callback) (name : string)
    (timeout : Z) (interested_parties : option nat) (name_server : string)
    : M TaskHandle :=
  EventEngine_Run (LookupTXTItem on_resolved) ;;;
  ret (mkHandle (-1) (-1)).

(** [NativeDNSResolver::Cancel], line 187. *)
Definition Cancel (handle : TaskHandle) : bool := false.

(** What the event engine does when it runs one of the closures: the
    bodies of the lambdas of lines 55-64, 163-168 and 178-183. *)
Definition run_work_item (item : WorkItem) : M unit :=
  match item with
  | NativeDNSRequestItem name default_port on_done =>
      result <- DNSResolver_LookupHostnameBlocking GetDNSResolver
                  name default_port ;;
      call_addresses_callback on_done result
  | LookupSRVItem on_resolved =>
      call_addresses_callback on_resolved
        (Err (UnimplementedError
                "The Native resolver does not support looking up SRV records"))
  | LookupTXTItem on_resolved =>
      call_string_callback on_resolved
        (Err (UnimplementedError
                "The Native resolver does not support looking up TXT records"))
  end.
End WithPlatform.
End NativeDNSResolver.

(** ** Reading the trace *)

Section Observations.
Context `{Platform}.

(** The events that were added to the trace between two worlds. *)
Definition trace_since (before after : World) : list Event :=
  skipn (length (w_trace before)) (w_trace after).

(** The (node, service) arguments of the calls of [getaddrinfo]. *)
Fixpoint gai_calls (tr : list Event) : list (string * string) :=
  match tr with
  | [] => []
  | EvGetaddrinfo node service _ _ :: rest => (node, service) :: gai_calls rest
  | _ :: rest => gai_calls rest
  end.


(** The lists given back with [freeaddrinfo]. *)
Fixpoint released (tr : list Event) : list (list gai_entry) :=
  match tr with
  | [] => []
  | EvFreeaddrinfo res :: rest => res :: released rest
  | _ :: rest => released rest
  end.

(** The callback invocations. *)
Definition is_callback (e : Event) : bool :=
  match e with
  | EvAddressesCallback _ _ => true
  | EvStringCallback _ _ => true
  | _ => false
  end.

Definition callbacks (tr : list Event) : list Event := filter is_callback tr.

(** The calls into the C library. *)
Definition is_os_call (e : Event) : bool :=
  match e with
  | EvGetaddrinfo _ _ _ _ => true
  | EvFreeaddrinfo _ => true
  | _ => false
  end.

Definition os_calls (tr : list Event) : list Event := filter is_os_call tr.

(** An entry is copied into a resolved address: same length, the occupied
    bytes are the first [ai_addrlen] bytes of the entry's address, and the
    buffer keeps its capacity. *)
Definition copies (entry : gai_entry) (r : grpc_resolved_address) : Prop :=
  len r = ai_addrlen entry /\
  firstn (len r) (addr r) =
    map Some (firstn (ai_addrlen entry) (ai_addr entry)) /\
  length (firstn (ai_addrlen entry) (ai_addr entry)) = ai_addrlen entry /\
  length (addr r) = GRPC_MAX_SOCKADDR_SIZE.

End Observations.

(** ** The kinds of events and the callback of a work item *)

Definition is_getaddrinfo (e : Event) : bool :=
  match e with
  | EvGetaddrinfo _ _ _ _ => true
  | _ => false
  end.

Definition is_freeaddrinfo (e : Event) : bool :=
  match e with
  | EvFreeaddrinfo _ => true
  | _ => false
  end.

(** A call of [getaddrinfo] is for the given node with the given hints;
    other events are not concerned. *)
Definition asks_for (node : string) (hints : addrinfo) (e : Event) : Prop :=
  match e with
  | EvGetaddrinfo asked _ given _ => asked = node /\ given = hints
  | _ => True
  end.

(** The callback a closure captured. *)
Definition WorkItem_callback (item : WorkItem) : Callback :=
  match item with
  | NativeDNSRequestItem _ _ on_done => on_done
  | LookupSRVItem on_resolved => on_resolved
  | LookupTXTItem on_resolved => on_resolved
  end.

(** The callback an event invoked, if it is an invocation. *)
Definition event_callback (e : Event) : option Callback :=
  match e with
  | EvAddressesCallback cb _ => Some cb
  | EvStringCallback cb _ => Some cb
  | _ => None
  end.

(** ** A small platform to run the resolver on *)

Module Sample.
Local Open Scope nat_scope.

(** Modelled from the spec: [SplitHostPort] is defined in
    [src/core/lib/gprpp/host_port.cc], which is not among the sources.
    The spec (section 4.1) has it read the target as [host] or
    [host:port], with brackets around an IPv6 literal, leave the port
    empty when the target has none, and extract no host from a malformed
    target. *)
Definition SplitHostPort (name : string) : bool * (string * string) :=
  let n := String.length name in
  match String.get 0 name with
  | Some "["%char =>
      match String.index 1 "]" name with
      | None => (false, ("", ""))
      | Some rbracket =>
          let host := String.substring 1 (rbracket - 1) name in
          let bracketed (port : string) :=
            match String.index 0 ":" host with
            | None => (false, ("", ""))
            | Some _ => (true, (host, port))
            end in
          if Nat.eqb rbracket (n - 1) then bracketed ""
          else
            match String.get (rbracket + 1) name with
            | Some ":"%char =>
                bracketed
                  (String.substring (rbracket + 2) (n - rbracket - 2) name)
            | _ => (false, ("", ""))
            end
      end
  | _ =>
      match String.index 0 ":" name with
      | None => (true, (name, ""))
      | Some colon =>
          match String.index (colon + 1) ":" name with
          | None =>
              (true, (String.substring 0 colon name,
                      String.substring (colon + 1) (n - colon - 1) name))
          | Some _ => (true, (name, ""))
          end
      end
  end.

(** A [sockaddr_in] for 127.0.0.1 and the port with the given two bytes. *)
Definition loopback4 (port_hi port_lo : byte) : gai_entry :=
  mkEntry
    (mkAddrinfo 0 2 1 6 16
       [x02; x00; port_hi; port_lo; x7f; x00; x00; x01;
        x00; x00; x00; x00; x00; x00; x00; x00])
    eq_refl.

(** A [sockaddr_in6] for ::1 and the port with the given two bytes. *)
Definition loopback6 (port_hi port_lo : byte) : gai_entry :=
  mkEntry
    (mkAddrinfo 0 10 1 6 28
       [x0a; x00; port_hi; port_lo; x00; x00; x00; x00;
        x00; x00; x00; x00; x00; x00; x00; x00;
        x00; x00; x00; x00; x00; x00; x00; x01;
        x00; x00; x00; x00])
    eq_refl.

Definition EAI_NONAME : Z := (-2)%Z.
Definition EAI_SERVICE : Z := (-8)%Z.

(** An OS resolver that knows three hosts, takes numeric ports only, and
    counts the calls it gets. *)
Definition os_getaddrinfo (node service : string) (hints : addrinfo)
    (calls : nat) : gai_reply * nat :=
  let answer :=
    if String.eqb node "localhost" then
      if String.eqb service "80" then
        mkReply 0 (Some [loopback4 x00 x50])
      else if String.eqb service "443" then
        mkReply 0 (Some [loopback4 x01 xbb])
      else mkReply EAI_SERVICE None
    else if String.eqb node "dual.test" then
      if String.eqb service "80" then
        mkReply 0 (Some [loopback6 x00 x50; loopback4 x00 x50])
      else mkReply EAI_SERVICE None
    else if String.eqb node "void.test" then
      mkReply 0 (Some [])
    else mkReply EAI_NONAME None in
  (answer, S calls).

Definition gai_strerror (errcode : Z) : string :=
  if Z.eqb errcode EAI_NONAME then "Name or service not known"
  else if Z.eqb errcode EAI_SERVICE then
    "Servname not supported for ai_socktype"
  else "Unknown error".

Definition platform : Platform :=
  Build_Platform nat os_getaddrinfo gai_strerror SplitHostPort
    (mkHandle 0 0).

(** The world before any call. *)
Definition w0 : @World platform := @mkWorld platform 0 [] [].

(** The process-wide resolver is the native one. *)
Definition resolver : @DNSResolver platform :=
  @mkDNSResolver platform
  (@NativeDNSResolver.LookupHostnameBlocking platform).
End Sample.

(** ** A platform whose resolver fails twice, differently *)

Module Failing.
Definition EAI_AGAIN : Z := (-3)%Z.

(** An OS resolver that has a temporary failure on the first call it gets
    and knows no host afterwards. *)
Definition os_getaddrinfo (node service : string) (hints : addrinfo)
    (calls : nat) : gai_reply * nat :=
  (match calls with
   | O => mkReply EAI_AGAIN None
   | S _ => mkReply Sample.EAI_NONAME None
   end,
   S calls).

Definition platform : Platform :=
  Build_Platform nat os_getaddrinfo Sample.gai_strerror Sample.SplitHostPort
    (mkHandle 0 0).

(** The world before any call. *)
Definition w0 : @World platform := @mkWorld platform 0%nat [] [].
End Failing.

(** ** A platform whose resolver hands out a list when it fails *)

Module Leaky.
(** An OS resolver that fails on the first call it gets and all the same
    stores a list through [res], and succeeds afterwards. *)
Definition os_getaddrinfo (node service : string) (hints : addrinfo)
    (calls : nat) : gai_reply * nat :=
  (match calls with
   | O => mkReply Sample.EAI_SERVICE (Some [Sample.loopback6 x00 x50])
   | S _ => mkReply 0 (Some [Sample.loopback4 x00 x50])
   end,
   S calls).

Definition platform : Platform :=
  Build_Platform nat os_getaddrinfo Sample.gai_strerror Sample.SplitHostPort
    (mkHandle 0 0).

(** The world before any call. *)
Definition w0 : @World platform := @mkWorld platform 0%nat [] [].
End Leaky.

(** ** Properties *)

Section Properties.
Context `{Platform}.

Import NativeDNSResolver.

(** *** Strings and status values *)

Lemma empty_true_iff (s : string) : empty s = true <-> s = "".
Proof. destruct s; simpl; split; congruence. Qed.

Lemma empty_false_iff (s : string) : empty s = false <-> s <> "".
Proof. destruct s; simpl; split; congruence. Qed.

Lemma StatusStrProperty_eqb_refl (k : StatusStrProperty) :
  StatusStrProperty_eqb k k = true.
Proof. destruct k; reflexivity. Qed.

Lemma grpc_error_get_str_set_str (err : Status) (k : StatusStrProperty)
    (v : string) :
  grpc_error_get_str (grpc_error_set_str err k v) k = Some v.
Proof.
  unfold grpc_error_get_str, grpc_error_set_str; simpl.
  now rewrite StatusStrProperty_eqb_refl.
Qed.

(** *** The trace only grows *)

Lemma trace_since_app (w w' : World) (d : list Event) :
  w_trace w' = w_trace w ++ d -> trace_since w w' = d.
Proof.
  intros E. unfold trace_since. rewrite E.
  rewrite skipn_app, Nat.sub_diag, skipn_all. reflexivity.
Qed.

Lemma trace_since_refl (w : World) : trace_since w w = [].
Proof. apply trace_since_app. now rewrite app_nil_r. Qed.

(** *** One step of each effect *)

Lemma getaddrinfo_run (node service : string) (hints : addrinfo)
    (res : list gai_entry) (w : World) :
  let o := os_getaddrinfo node service hints (w_os w) in
  getaddrinfo node service hints res w =
    ((gai_rc (fst o),
      match gai_res (fst o) with Some stored => stored | None => res end),
     mkWorld (snd o) (w_pending w)
       (w_trace w ++ [EvGetaddrinfo node service hints (fst o)])).
Proof.
  intros o. unfold getaddrinfo. fold o. destruct o; reflexivity.
Qed.

Lemma done_run (result : list gai_entry) (err : Status)
    (addresses : list grpc_resolved_address) (w : World) :
  done result err addresses w =
    (if Status_ok err then Ok addresses
     else Err (grpc_error_to_absl_status err),
     match result with
     | [] => w
     | _ :: _ =>
         mkWorld (w_os w) (w_pending w) (w_trace w ++ [EvFreeaddrinfo result])
     end).
Proof.
  unfold done, bind, ret, freeaddrinfo, emit.
  destruct result; destruct (Status_ok err); reflexivity.
Qed.

Lemma retry_well_known_svc (host port : string) (hints : addrinfo) (s : Z)
    (result : list gai_entry) :
  retry_well_known svc host port hints s result =
    if String.eqb port "http" then
      getaddrinfo (c_str host) "80" hints result
    else if String.eqb port "https" then
      getaddrinfo (c_str host) "443" hints result
    else ret (s, result).
Proof. reflexivity. Qed.

Lemma fill_addrs_map (resp : list gai_entry)
    (addresses : list grpc_resolved_address) :
  fill_addrs resp addresses = addresses ++ map resolved_address_of resp.
Proof.
  revert addresses.
  induction resp as [|entry next IH]; intros addresses; simpl.
  - now rewrite app_nil_r.
  - rewrite IH, <- app_assoc. reflexivity.
Qed.

Lemma resolved_address_copies (entry : gai_entry) :
  copies entry (resolved_address_of entry).
Proof.
  pose proof (entry_fits entry) as Hfits. unfold fits in Hfits.
  apply andb_prop in Hfits. destruct Hfits as [Hcap Hsrc].
  apply Nat.leb_le in Hcap, Hsrc.
  assert (Hlen : length (firstn (ai_addrlen entry) (ai_addr entry)) =
                 ai_addrlen entry)
    by (rewrite length_firstn; apply Nat.min_l; exact Hsrc).
  unfold copies, resolved_address_of, memcpy. cbn [addr len].
  split; [reflexivity|]. split; [|split; [exact Hlen|]].
  - rewrite firstn_app, length_map, Hlen, Nat.sub_diag, firstn_O, app_nil_r.
    apply firstn_all2. rewrite length_map, Hlen. apply Nat.le_refl.
  - rewrite length_app, length_map, Hlen, length_skipn.
    change (length indeterminate_buffer) with GRPC_MAX_SOCKADDR_SIZE in *.
    lia.
Qed.

(** *** The shape of a lookup *)

(** With a non-empty host and the port settled, a lookup is
    [resolve_with_port]. *)
Lemma LookupHostnameBlocking_parsed (name default_port : string)
    (flag : bool) (host port : string) :
  SplitHostPort name = (flag, (host, port)) ->
  host <> "" ->
  LookupHostnameBlocking name default_port =
    if empty port then
      if empty default_port then
        done []
          (grpc_error_set_str (GRPC_ERROR_CREATE "no port in name")
             kTargetAddress name)
          []
      else resolve_with_port name host default_port
    else resolve_with_port name host port.
Proof.
  intros Hsplit Hhost. unfold LookupHostnameBlocking. rewrite Hsplit.
  apply empty_false_iff in Hhost. now rewrite Hhost.
Qed.

(** With the port settled, the lookup calls [getaddrinfo] for the host and
    that port; a failure is retried with "80" for "http" and with "443" for
    "https", and with nothing else. *)
Lemma getaddrinfo_with_retry_run (host port : string) (hints : addrinfo)
    (w : World) :
  let o1 := os_getaddrinfo (c_str host) (c_str port) hints (w_os w) in
  let res1 := match gai_res (fst o1) with Some stored => stored | None => [] end in
  let w1 := mkWorld (snd o1) (w_pending w)
              (w_trace w ++ [EvGetaddrinfo (c_str host) (c_str port) hints (fst o1)]) in
  getaddrinfo_with_retry host port hints w =
    if gai_rc (fst o1) =? 0 then ((gai_rc (fst o1), res1), w1)
    else if String.eqb port "http" then
      getaddrinfo (c_str host) "80" hints res1 w1
    else if String.eqb port "https" then
      getaddrinfo (c_str host) "443" hints res1 w1
    else ((gai_rc (fst o1), res1), w1).
Proof.
  intros o1 res1 w1. unfold getaddrinfo_with_retry, bind.
  rewrite getaddrinfo_run. fold o1 res1 w1.
  destruct (gai_rc (fst o1) =? 0); cbn [negb]; cbv beta iota; [reflexivity|].
  rewrite retry_well_known_svc.
  destruct (String.eqb port "http"); [reflexivity|].
  destruct (String.eqb port "https"); reflexivity.
Qed.

Lemma resolve_with_port_run (name host port : string) (w : World) :
  let r := getaddrinfo_with_retry host port lookup_hints w in
  let s := fst (fst r) in
  let result := snd (fst r) in
  resolve_with_port name host port w =
    if s =? 0 then done result OkStatus (fill_addrs result []) (snd r)
    else done result (getaddrinfo_error s name) [] (snd r).
Proof.
  intros r s result. unfold resolve_with_port, bind. fold r.
  subst s result. destruct r as [[s result] w']; simpl.
  destruct (s =? 0); reflexivity.
Qed.

(** The events of [getaddrinfo_with_retry]: calls of [getaddrinfo] only, and
    appended to the trace. *)
Lemma getaddrinfo_with_retry_trace (host port : string) (hints : addrinfo)
    (w : World) :
  exists d,
    w_trace (snd (getaddrinfo_with_retry host port hints w)) = w_trace w ++ d /\
    released d = [] /\ callbacks d = [] /\
    w_pending (snd (getaddrinfo_with_retry host port hints w)) = w_pending w.
Proof.
  rewrite getaddrinfo_with_retry_run; cbv zeta.
  destruct (gai_rc _ =? 0);
    [|destruct (String.eqb port "http");
      [|destruct (String.eqb port "https")]];
    rewrite ?getaddrinfo_run; cbv zeta; simpl;
    rewrite <- ?app_assoc; eexists; (split; [reflexivity|]); simpl; auto.
Qed.

Ltac break_if :=
  match goal with
  | |- context [if ?b then _ else _] => destruct b eqn:?
  end.

Ltac break_list_match :=
  match goal with
  | |- context [match ?l with [] => _ | _ :: _ => _ end] =>
      destruct l as [|entry next] eqn:?
  end.

(** Brings the trace of a finished run to the form [w_trace w ++ d]. *)
Ltac settle_trace :=
  erewrite trace_since_app by (simpl; rewrite <- ?app_assoc; reflexivity).

(** The calls of [getaddrinfo] of a lookup whose port is settled. *)
Lemma resolve_with_port_calls (name host port : string) (w : World) :
  let first :=
    fst (os_getaddrinfo (c_str host) (c_str port) lookup_hints (w_os w)) in
  gai_calls (trace_since w (snd (resolve_with_port name host port w))) =
    (c_str host, c_str port)
      :: (if gai_rc first =? 0 then []
          else if String.eqb port "http" then [(c_str host, "80")]
          else if String.eqb port "https" then [(c_str host, "443")]
          else []).
Proof.
  intros first. rewrite resolve_with_port_run; cbv zeta.
  rewrite getaddrinfo_with_retry_run; cbv zeta. fold first.
  destruct (gai_rc first =? 0) eqn:Hrc.
  - simpl. rewrite Hrc, done_run. break_list_match; settle_trace; reflexivity.
  - destruct (String.eqb port "http");
      [|destruct (String.eqb port "https")];
      rewrite ?getaddrinfo_run; cbv zeta; simpl; rewrite ?Hrc;
      repeat break_if; rewrite done_run; repeat break_list_match;
      settle_trace; reflexivity.
Qed.

(** A lookup that stops before the OS is asked leaves the world as it was. *)
Lemma done_without_result (err : Status)
    (addresses : list grpc_resolved_address) (w : World) :
  snd (done [] err addresses w) = w.
Proof. now rewrite done_run. Qed.

Lemma LookupHostnameBlocking_unparsed (name default_port : string) :
  fst (snd (SplitHostPort name)) = "" ->
  LookupHostnameBlocking name default_port =
    done []
      (grpc_error_set_str (GRPC_ERROR_CREATE "unparseable host:port")
         kTargetAddress name)
      [].
Proof.
  intros Hhost. unfold LookupHostnameBlocking.
  destruct (SplitHostPort name) as [flag [host port]]; simpl in Hhost.
  now subst host.
Qed.

(** C1: when the first [getaddrinfo] call of [LookupHostnameBlocking] fails
    and the effective port is "http" (resp. "https"), exactly one more call
    is made, with the port "80" (resp. "443"); for any other port there is
    no retry; and no call of [LookupHostnameBlocking] makes more than two
    calls of [getaddrinfo], that is, more than one retry. *)
Theorem C1_single_retry_for_well_known_service
    (name default_port : string) (w : World) :
  let calls :=
    gai_calls
      (trace_since w (snd (LookupHostnameBlocking name default_port w))) in
  (length calls <= 2)%nat /\
  forall (flag : bool) (host parsed_port port : string),
    SplitHostPort name = (flag, (host, parsed_port)) ->
    host <> "" ->
    port = (if empty parsed_port then default_port else parsed_port) ->
    port <> "" ->
    let first :=
      fst (os_getaddrinfo (c_str host) (c_str port) lookup_hints (w_os w)) in
    (gai_rc first = 0 -> calls = [(c_str host, c_str port)]) /\
    (gai_rc first <> 0 -> port = "http" ->
     calls = [(c_str host, "http"); (c_str host, "80")]) /\
    (gai_rc first <> 0 -> port = "https" ->
     calls = [(c_str host, "https"); (c_str host, "443")]) /\
    (gai_rc first <> 0 -> port <> "http" -> port <> "https" ->
     calls = [(c_str host, c_str port)]).
Proof.
  intros calls.
  assert (Hshape :
    forall flag host parsed_port port,
      SplitHostPort name = (flag, (host, parsed_port)) ->
      host <> "" ->
      port = (if empty parsed_port then default_port else parsed_port) ->
      port <> "" ->
      calls =
        gai_calls (trace_since w (snd (resolve_with_port name host port w)))).
  { intros flag host parsed_port port Hsplit Hhost Hport Hne. subst calls.
    rewrite (LookupHostnameBlocking_parsed name default_port flag host
               parsed_port Hsplit Hhost).
    destruct (empty parsed_port) eqn:Hpp; [|now subst port].
    subst port. apply empty_false_iff in Hne. now rewrite Hne. }
  split.
  - destruct (SplitHostPort name) as [flag [host parsed_port]] eqn:Hsplit.
    destruct (empty host) eqn:Hhost.
    + subst calls. apply empty_true_iff in Hhost.
      rewrite LookupHostnameBlocking_unparsed by (now rewrite Hsplit).
      rewrite done_without_result, trace_since_refl. simpl; lia.
    + apply empty_false_iff in Hhost.
      destruct (empty (if empty parsed_port then default_port else parsed_port))
        eqn:Hport.
      * subst calls.
        rewrite (LookupHostnameBlocking_parsed name default_port flag host
                   parsed_port Hsplit Hhost).
        revert Hport. destruct (empty parsed_port) eqn:Hpp; intros Hport;
          [|congruence].
        rewrite Hport, done_without_result, trace_since_refl. simpl; lia.
      * apply empty_false_iff in Hport.
        rewrite (Hshape flag host _ _ eq_refl Hhost eq_refl Hport).
        rewrite resolve_with_port_calls; cbv zeta.
        repeat break_if; simpl; lia.
  - intros flag host parsed_port port Hsplit Hhost Hport Hne first.
    rewrite (Hshape flag host parsed_port port Hsplit Hhost Hport Hne).
    rewrite resolve_with_port_calls; cbv zeta. fold first.
    repeat split.
    + intros Hrc. apply Z.eqb_eq in Hrc. now rewrite Hrc.
    + intros Hrc Hp. apply Z.eqb_neq in Hrc. rewrite Hrc, Hp. reflexivity.
    + intros Hrc Hp. apply Z.eqb_neq in Hrc. rewrite Hrc, Hp. reflexivity.
    + intros Hrc Hp1 Hp2. apply Z.eqb_neq in Hrc. rewrite Hrc.
      apply String.eqb_neq in Hp1, Hp2. now rewrite Hp1, Hp2.
Qed.

(** C2 (as amended): for every name whose parse yields a non-empty host and
    an empty port, an empty [default_port] makes [LookupHostnameBlocking]
    return, without any call into the OS, a non-OK status whose message is
    "no port in name" and whose target address is the target string; a
    non-empty [default_port] is taken as the port, and the OS is first asked
    for the host and that port. *)
Theorem C2_missing_port_after_host_check
    (name default_port : string) (w : World) (flag : bool) (host : string) :
  SplitHostPort name = (flag, (host, "")) ->
  host <> "" ->
  let run := LookupHostnameBlocking name default_port w in
  (default_port = "" ->
   exists st,
     run = (Err st, w) /\
     Status_ok st = false /\
     status_message st = "no port in name" /\
     grpc_error_get_str st kTargetAddress = Some name /\
     os_calls (trace_since w (snd run)) = []) /\
  (default_port <> "" ->
   run = resolve_with_port name host default_port w /\
   hd_error (gai_calls (trace_since w (snd run))) =
     Some (c_str host, c_str default_port)).
Proof.
  intros Hsplit Hhost run. subst run.
  rewrite (LookupHostnameBlocking_parsed name default_port flag host ""
             Hsplit Hhost).
  cbn [empty]. split.
  - intros Hdp. subst default_port. cbn [empty]. rewrite done_run.
    cbn [fst snd]. rewrite trace_since_refl.
    eexists. split; [reflexivity|]. repeat split.
  - intros Hdp. apply empty_false_iff in Hdp. rewrite Hdp.
    split; [reflexivity|]. now rewrite resolve_with_port_calls.
Qed.

(** C3: for every name from which the parse extracts an empty host,
    [LookupHostnameBlocking] returns, whatever [default_port] is and without
    any call into the OS, a non-OK status whose message is
    "unparseable host:port" and whose target address is the target
    string. *)
Theorem C3_unparseable_target
    (name default_port : string) (w : World) :
  fst (snd (SplitHostPort name)) = "" ->
  let run := LookupHostnameBlocking name default_port w in
  exists st,
    run = (Err st, w) /\
    Status_ok st = false /\
    status_message st = "unparseable host:port" /\
    grpc_error_get_str st kTargetAddress = Some name /\
    os_calls (trace_since w (snd run)) = [].
Proof.
  intros Hhost run. subst run.
  rewrite (LookupHostnameBlocking_unparsed name default_port Hhost).
  rewrite done_run. cbn [fst snd]. rewrite trace_since_refl.
  eexists. split; [reflexivity|]. repeat split.
Qed.

(** The name of the target shows only in the error of a failed lookup. *)
Lemma resolve_with_port_name_irrelevant (name name' host port : string)
    (w : World) :
  snd (resolve_with_port name' host port w) =
    snd (resolve_with_port name host port w) /\
  forall addresses,
    fst (resolve_with_port name' host port w) = Ok addresses <->
    fst (resolve_with_port name host port w) = Ok addresses.
Proof.
  rewrite !resolve_with_port_run; cbv zeta.
  destruct (fst (fst (getaddrinfo_with_retry host port lookup_hints w)) =? 0);
    rewrite !done_run; cbn [fst snd]; split; try reflexivity.
  intros addresses. cbn. split; discriminate.
Qed.

(** C8: the retry looks at the port after [default_port] was substituted:
    for a name without a port and [default_port] "http" or "https", a first
    call of [getaddrinfo] that fails is followed by one call with "80" or
    "443", and the lookup goes as for any target that names the same host
    and spells the service out. *)
Theorem C8_retry_applies_to_default_port
    (name default_port : string) (w : World) (flag : bool) (host : string) :
  SplitHostPort name = (flag, (host, "")) ->
  host <> "" ->
  default_port = "http" \/ default_port = "https" ->
  gai_rc (fst (os_getaddrinfo (c_str host) (c_str default_port) lookup_hints
                 (w_os w))) <> 0 ->
  gai_calls (trace_since w (snd (LookupHostnameBlocking name default_port w))) =
    [(c_str host, default_port);
     (c_str host, if String.eqb default_port "http" then "80" else "443")] /\
  forall (name' other_default : string) (flag' : bool),
    SplitHostPort name' = (flag', (host, default_port)) ->
    snd (LookupHostnameBlocking name' other_default w) =
      snd (LookupHostnameBlocking name default_port w) /\
    forall addresses,
      fst (LookupHostnameBlocking name' other_default w) = Ok addresses <->
      fst (LookupHostnameBlocking name default_port w) = Ok addresses.
Proof.
  intros Hsplit Hhost Hdp Hrc.
  assert (Hne : empty default_port = false) by (destruct Hdp; now subst).
  rewrite (LookupHostnameBlocking_parsed name default_port flag host ""
             Hsplit Hhost).
  cbn [empty]. rewrite Hne. split.
  - rewrite resolve_with_port_calls; cbv zeta.
    apply Z.eqb_neq in Hrc. rewrite Hrc.
    destruct Hdp; subst default_port; reflexivity.
  - intros name' other_default flag' Hsplit'.
    rewrite (LookupHostnameBlocking_parsed name' other_default flag' host
               default_port Hsplit' Hhost).
    rewrite Hne. apply resolve_with_port_name_irrelevant.
Qed.

(** With a non-empty host and a non-empty effective port, a lookup is
    [resolve_with_port] for them. *)
Lemma LookupHostnameBlocking_resolves (name default_port : string)
    (flag : bool) (host parsed_port port : string) :
  SplitHostPort name = (flag, (host, parsed_port)) ->
  host <> "" ->
  port = (if empty parsed_port then default_port else parsed_port) ->
  port <> "" ->
  LookupHostnameBlocking name default_port = resolve_with_port name host port.
Proof.
  intros Hsplit Hhost Hport Hne.
  rewrite (LookupHostnameBlocking_parsed name default_port flag host
             parsed_port Hsplit Hhost).
  destruct (empty parsed_port); [|now subst port].
  subst port. apply empty_false_iff in Hne. now rewrite Hne.
Qed.

(** C4: when the call of [getaddrinfo] that ends the OS resolution (the
    retry if there is one, the first call otherwise) returns 0 and hands out
    a list of entries, [LookupHostnameBlocking] returns success with one
    resolved address per entry, in the order of the list, each with the
    length of its entry, the entry's address bytes in the occupied part of
    a buffer of [GRPC_MAX_SOCKADDR_SIZE] bytes; an empty list gives success
    with no address. *)
Theorem C4_success_copies_every_entry
    (name default_port : string) (w : World)
    (flag : bool) (host parsed_port port : string)
    (entries : list gai_entry) :
  SplitHostPort name = (flag, (host, parsed_port)) ->
  host <> "" ->
  port = (if empty parsed_port then default_port else parsed_port) ->
  port <> "" ->
  let o1 := os_getaddrinfo (c_str host) (c_str port) lookup_hints (w_os w) in
  let retried :=
    negb (gai_rc (fst o1) =? 0)
    && (String.eqb port "http" || String.eqb port "https") in
  let o2 :=
    os_getaddrinfo (c_str host)
      (if String.eqb port "http" then "80" else "443") lookup_hints (snd o1) in
  let last := fst (if retried then o2 else o1) in
  gai_rc last = 0 ->
  gai_res last = Some entries ->
  exists addresses,
    fst (LookupHostnameBlocking name default_port w) = Ok addresses /\
    length addresses = length entries /\
    Forall2 copies entries addresses /\
    (entries = [] -> addresses = []).
Proof.
  intros Hsplit Hhost Hport Hne o1 retried o2 last Hrc Hres.
  rewrite (LookupHostnameBlocking_resolves name default_port flag host
             parsed_port port Hsplit Hhost Hport Hne).
  assert (Hrun :
    fst (resolve_with_port name host port w) =
      Ok (map resolved_address_of entries)).
  { rewrite resolve_with_port_run; cbv zeta.
    rewrite getaddrinfo_with_retry_run; cbv zeta. fold o1.
    subst last retried.
    destruct (gai_rc (fst o1) =? 0) eqn:Hrc1; cbn [negb andb] in Hrc, Hres.
    - cbn [fst snd]. rewrite Hrc1, Hres, done_run, fill_addrs_map.
      reflexivity.
    - destruct (String.eqb port "http") eqn:Hhttp;
        [|destruct (String.eqb port "https") eqn:Hhttps];
        cbn [orb] in Hrc, Hres.
      + rewrite getaddrinfo_run; cbv zeta. cbn [fst snd w_os]. fold o2.
        rewrite Hrc, Hres. cbn [Z.eqb]. rewrite done_run, fill_addrs_map.
        reflexivity.
      + rewrite getaddrinfo_run; cbv zeta. cbn [fst snd w_os]. fold o2.
        rewrite Hrc, Hres. cbn [Z.eqb]. rewrite done_run, fill_addrs_map.
        reflexivity.
      + apply Z.eqb_neq in Hrc1. contradiction. }
  exists (map resolved_address_of entries).
  split; [exact Hrun|]. split; [apply length_map|]. split.
  - clear. induction entries as [|entry next IH]; simpl; constructor.
    + apply resolved_address_copies.
    + exact IH.
  - intros ->. reflexivity.
Qed.

(** C5: when the call of [getaddrinfo] that ends the OS resolution (the
    retry if there is one, the first call otherwise) returns a non-zero
    code [s], [LookupHostnameBlocking] returns a non-OK status whose message
    is [gai_strerror s] and which carries [s] as the error number,
    [gai_strerror s] as the OS error, "getaddrinfo" as the syscall and the
    target string as the target address. *)
Theorem C5_os_failure_is_reported
    (name default_port : string) (w : World)
    (flag : bool) (host parsed_port port : string) :
  SplitHostPort name = (flag, (host, parsed_port)) ->
  host <> "" ->
  port = (if empty parsed_port then default_port else parsed_port) ->
  port <> "" ->
  let o1 := os_getaddrinfo (c_str host) (c_str port) lookup_hints (w_os w) in
  let retried :=
    negb (gai_rc (fst o1) =? 0)
    && (String.eqb port "http" || String.eqb port "https") in
  let o2 :=
    os_getaddrinfo (c_str host)
      (if String.eqb port "http" then "80" else "443") lookup_hints (snd o1) in
  let s := gai_rc (fst (if retried then o2 else o1)) in
  s <> 0 ->
  exists st,
    fst (LookupHostnameBlocking name default_port w) = Err st /\
    Status_ok st = false /\
    status_message st = gai_strerror s /\
    grpc_error_get_int st kErrorNo = Some s /\
    grpc_error_get_str st kOsError = Some (gai_strerror s) /\
    grpc_error_get_str st kSyscall = Some "getaddrinfo" /\
    grpc_error_get_str st kTargetAddress = Some name.
Proof.
  intros Hsplit Hhost Hport Hne o1 retried o2 s Hs.
  rewrite (LookupHostnameBlocking_resolves name default_port flag host
             parsed_port port Hsplit Hhost Hport Hne).
  exists (grpc_error_to_absl_status (getaddrinfo_error s name)).
  split; [|repeat split].
  rewrite resolve_with_port_run; cbv zeta.
  rewrite getaddrinfo_with_retry_run; cbv zeta. fold o1.
  subst s retried. apply Z.eqb_neq in Hs.
  destruct (gai_rc (fst o1) =? 0) eqn:Hrc1; cbn [negb andb] in Hs |- *.
  - cbn [fst snd]. rewrite Hs, done_run. reflexivity.
  - destruct (String.eqb port "http") eqn:Hhttp;
      [|destruct (String.eqb port "https") eqn:Hhttps];
      cbn [orb] in Hs |- *.
    + rewrite getaddrinfo_run; cbv zeta. cbn [fst snd w_os]. fold o2.
      rewrite Hs, done_run. reflexivity.
    + rewrite getaddrinfo_run; cbv zeta. cbn [fst snd w_os]. fold o2.
      rewrite Hs, done_run. reflexivity.
    + cbn [fst snd]. rewrite Hs, done_run. reflexivity.
Qed.


Lemma released_app (d1 d2 : list Event) :
  released (d1 ++ d2) = released d1 ++ released d2.
Proof.
  induction d1 as [|e d1 IH]; simpl; [reflexivity|].
  destruct e; simpl; now rewrite ?IH.
Qed.


(** A blocking lookup appends its events to the trace, calls no callback and
    hands nothing to the event engine. *)
Lemma LookupHostnameBlocking_trace (name default_port : string) (w : World) :
  exists d,
    w_trace (snd (LookupHostnameBlocking name default_port w)) =
      w_trace w ++ d /\
    callbacks d = [] /\
    w_pending (snd (LookupHostnameBlocking name default_port w)) = w_pending w.
Proof.
  assert (Hstop : forall err,
    exists d,
      w_trace (snd (done [] err [] w)) = w_trace w ++ d /\
      callbacks d = [] /\
      w_pending (snd (done [] err [] w)) = w_pending w).
  { intros err. exists []. rewrite done_without_result, app_nil_r. auto. }
  assert (Hres : forall host port,
    exists d,
      w_trace (snd (resolve_with_port name host port w)) = w_trace w ++ d /\
      callbacks d = [] /\
      w_pending (snd (resolve_with_port name host port w)) = w_pending w).
  { intros host port. rewrite resolve_with_port_run; cbv zeta.
    destruct (getaddrinfo_with_retry_trace host port lookup_hints w)
      as (d & Htrace & _ & Hcb & Hpending).
    break_if; rewrite done_run; break_list_match; cbn [snd w_trace w_pending];
      rewrite Htrace, Hpending;
      first [ now exists d
            | exists (d ++ [EvFreeaddrinfo (entry :: next)]);
              rewrite app_assoc; unfold callbacks in *;
              rewrite filter_app, Hcb; auto ]. }
  unfold LookupHostnameBlocking.
  destruct (SplitHostPort name) as [flag [host port]].
  repeat break_if; auto.
Qed.

(** C6: [LookupHostname] hands exactly one work item to the event engine,
    touches nothing else and returns [kNullHandle]; when the work item runs,
    it calls [on_done] once, after the blocking lookup of the registered
    resolver for [name] and [default_port], with the result of that lookup;
    [timeout], [interested_parties] and [name_server] play no part. *)
Theorem C6_LookupHostname_dispatches_blocking_lookup
    (GetDNSResolver : DNSResolver) (on_done : Callback)
    (name default_port : string) (timeout : Z)
    (interested_parties : option nat) (name_server : string) (w : World) :
  let item := NativeDNSRequestItem name default_port on_done in
  LookupHostname on_done name default_port timeout interested_parties
    name_server w =
    (kNullHandle, mkWorld (w_os w) (w_pending w ++ [item]) (w_trace w)) /\
  (forall (timeout' : Z) (interested_parties' : option nat)
          (name_server' : string),
     LookupHostname on_done name default_port timeout' interested_parties'
       name_server' w =
     LookupHostname on_done name default_port timeout interested_parties
       name_server w) /\
  (forall w1 : World,
     let lookup :=
       DNSResolver_LookupHostnameBlocking GetDNSResolver name default_port w1 in
     run_work_item GetDNSResolver item w1 =
       (tt, mkWorld (w_os (snd lookup)) (w_pending (snd lookup))
              (w_trace (snd lookup) ++ [EvAddressesCallback on_done (fst lookup)]))) /\
  (forall w1 : World,
     let native := mkDNSResolver LookupHostnameBlocking in
     callbacks (trace_since w1 (snd (run_work_item native item w1))) =
       [EvAddressesCallback on_done
          (fst (LookupHostnameBlocking name default_port w1))]).
Proof.
  intros item. split; [reflexivity|]. split; [reflexivity|].
  assert (Hrun : forall resolver w1,
    run_work_item resolver item w1 =
      (tt, mkWorld
             (w_os (snd (DNSResolver_LookupHostnameBlocking resolver name
                           default_port w1)))
             (w_pending (snd (DNSResolver_LookupHostnameBlocking resolver name
                                default_port w1)))
             (w_trace (snd (DNSResolver_LookupHostnameBlocking resolver name
                              default_port w1))
                ++ [EvAddressesCallback on_done
                      (fst (DNSResolver_LookupHostnameBlocking resolver name
                              default_port w1))]))).
  { intros resolver w1. unfold item, run_work_item, bind.
    destruct (DNSResolver_LookupHostnameBlocking resolver name default_port w1).
    reflexivity. }
  split.
  - intros w1 lookup. apply Hrun.
  - intros w1 native. rewrite Hrun. unfold native.
    cbn [DNSResolver_LookupHostnameBlocking snd w_trace].
    destruct (LookupHostnameBlocking_trace name default_port w1)
      as (d & Htrace & Hcb & _).
    erewrite trace_since_app
      by (cbn [w_trace]; rewrite Htrace, <- app_assoc; reflexivity).
    unfold callbacks in *. rewrite filter_app, Hcb. reflexivity.
Qed.

(** C7: [LookupSRV] and [LookupTXT] call nothing in the OS and no callback;
    each hands one work item to the event engine and returns the handle
    (-1, -1); the work item, when it runs, calls [on_resolved] once, with an
    [UnimplementedError] whose fixed message names the record type. *)
Theorem C7_SRV_and_TXT_are_unsupported
    (GetDNSResolver : DNSResolver) (on_resolved : Callback) (name : string)
    (timeout : Z) (interested_parties : option nat) (name_server : string)
    (w : World) :
  let srv_error :=
    UnimplementedError
      "The Native resolver does not support looking up SRV records" in
  let txt_error :=
    UnimplementedError
      "The Native resolver does not support looking up TXT records" in
  LookupSRV on_resolved name timeout interested_parties name_server w =
    (mkHandle (-1) (-1),
     mkWorld (w_os w) (w_pending w ++ [LookupSRVItem on_resolved]) (w_trace w)) /\
  LookupTXT on_resolved name timeout interested_parties name_server w =
    (mkHandle (-1) (-1),
     mkWorld (w_os w) (w_pending w ++ [LookupTXTItem on_resolved]) (w_trace w)) /\
  (forall w1 : World,
     run_work_item GetDNSResolver (LookupSRVItem on_resolved) w1 =
       (tt, mkWorld (w_os w1) (w_pending w1)
              (w_trace w1 ++ [EvAddressesCallback on_resolved (Err srv_error)]))) /\
  (forall w1 : World,
     run_work_item GetDNSResolver (LookupTXTItem on_resolved) w1 =
       (tt, mkWorld (w_os w1) (w_pending w1)
              (w_trace w1 ++ [EvStringCallback on_resolved (Err txt_error)]))) /\
  status_code srv_error = kUnimplemented /\
  status_code txt_error = kUnimplemented /\
  String.index 0 "SRV" (status_message srv_error) = Some 48%nat /\
  String.index 0 "TXT" (status_message txt_error) = Some 48%nat.
Proof. repeat split. Qed.

(** C10: [Cancel] returns false for every handle, and so for the handles
    that [LookupHostname], [LookupSRV] and [LookupTXT] have just returned. *)
Theorem C10_Cancel_returns_false
    (handle : TaskHandle) (cb : Callback) (name default_port : string)
    (timeout : Z) (interested_parties : option nat) (name_server : string)
    (w : World) :
  Cancel handle = false /\
  Cancel (fst (LookupHostname cb name default_port timeout interested_parties
                 name_server w)) = false /\
  Cancel (fst (LookupSRV cb name timeout interested_parties name_server w))
    = false /\
  Cancel (fst (LookupTXT cb name timeout interested_parties name_server w))
    = false.
Proof. repeat split. Qed.

(** *** Further properties of the blocking lookup *)

(** The three ways a lookup can go, read off the parse of the name. *)
Lemma LookupHostnameBlocking_cases (name default_port : string)
    (flag : bool) (host parsed_port : string) :
  SplitHostPort name = (flag, (host, parsed_port)) ->
  (host = "" /\
   LookupHostnameBlocking name default_port =
     done []
       (grpc_error_set_str (GRPC_ERROR_CREATE "unparseable host:port")
          kTargetAddress name)
       []) \/
  (host <> "" /\ parsed_port = "" /\ default_port = "" /\
   LookupHostnameBlocking name default_port =
     done []
       (grpc_error_set_str (GRPC_ERROR_CREATE "no port in name")
          kTargetAddress name)
       []) \/
  (host <> "" /\
   exists port,
     port <> "" /\
     port = (if empty parsed_port then default_port else parsed_port) /\
     LookupHostnameBlocking name default_port =
       resolve_with_port name host port).
Proof.
  intros Hsplit.
  destruct (empty host) eqn:Hhost.
  - left. apply empty_true_iff in Hhost. split; [exact Hhost|].
    apply LookupHostnameBlocking_unparsed. now rewrite Hsplit.
  - right. apply empty_false_iff in Hhost.
    rewrite (LookupHostnameBlocking_parsed name default_port flag host
               parsed_port Hsplit Hhost).
    destruct (empty parsed_port) eqn:Hparsed.
    + apply empty_true_iff in Hparsed.
      destruct (empty default_port) eqn:Hdefault.
      * left. apply empty_true_iff in Hdefault. auto.
      * right. apply empty_false_iff in Hdefault. split; [exact Hhost|].
        exists default_port. auto.
    + right. apply empty_false_iff in Hparsed. split; [exact Hhost|].
      exists parsed_port. auto.
Qed.

Lemma released_of_calls (calls : list Event) :
  forallb is_getaddrinfo calls = true -> released calls = [].
Proof.
  induction calls as [|e calls IH]; simpl; [reflexivity|].
  destruct e; simpl; try discriminate. exact IH.
Qed.

Lemma callbacks_of_calls (calls : list Event) :
  forallb is_getaddrinfo calls = true -> callbacks calls = [].
Proof.
  induction calls as [|e calls IH]; simpl; [reflexivity|].
  destruct e; simpl; try discriminate. exact IH.
Qed.

(** The events of [getaddrinfo_with_retry] are calls of [getaddrinfo] for the
    C string of the host, with the hints it was given. *)
Lemma getaddrinfo_with_retry_shape (host port : string) (hints : addrinfo)
    (w : World) :
  exists calls,
    w_trace (snd (getaddrinfo_with_retry host port hints w)) =
      w_trace w ++ calls /\
    forallb is_getaddrinfo calls = true /\
    Forall (asks_for (c_str host) hints) calls /\
    w_pending (snd (getaddrinfo_with_retry host port hints w)) = w_pending w.
Proof.
  rewrite getaddrinfo_with_retry_run; cbv zeta.
  destruct (gai_rc _ =? 0);
    [|destruct (String.eqb port "http");
      [|destruct (String.eqb port "https")]];
    rewrite ?getaddrinfo_run; cbv zeta; simpl;
    rewrite <- ?app_assoc; eexists; (split; [reflexivity|]); simpl;
    repeat split; repeat constructor; simpl; auto.
Qed.

(** The events of a lookup whose port is settled: the calls of
    [getaddrinfo], then [freeaddrinfo] for the list held at the end, unless
    it is null. *)
Lemma resolve_with_port_shape (name host port : string) (w : World) :
  let result :=
    snd (fst (getaddrinfo_with_retry host port lookup_hints w)) in
  exists calls,
    w_trace (snd (resolve_with_port name host port w)) =
      w_trace w ++ calls
        ++ match result with
           | [] => []
           | _ :: _ => [EvFreeaddrinfo result]
           end /\
    forallb is_getaddrinfo calls = true /\
    Forall (asks_for (c_str host) lookup_hints) calls /\
    w_pending (snd (resolve_with_port name host port w)) = w_pending w.
Proof.
  intros result.
  destruct (getaddrinfo_with_retry_shape host port lookup_hints w)
    as (calls & Htrace & Hcalls & Hasks & Hpending).
  exists calls. rewrite resolve_with_port_run; cbv zeta. fold result.
  break_if; rewrite done_run; cbn [snd];
    destruct result as [|entry next]; cbn [w_trace w_pending];
    rewrite Htrace, ?app_nil_r, <- ?app_assoc; auto.
Qed.

(** X1: every call of [getaddrinfo] that a lookup makes, the retry
    included, is for the C string of the parsed host and carries the same
    hints: family [AF_UNSPEC], socket type [SOCK_STREAM], flag [AI_PASSIVE],
    and zero in the other fields. *)
Theorem every_getaddrinfo_call_is_for_the_host_with_the_hints
    (name default_port : string) (w : World)
    (flag : bool) (host parsed_port : string) :
  SplitHostPort name = (flag, (host, parsed_port)) ->
  Forall (asks_for (c_str host) lookup_hints)
    (trace_since w (snd (LookupHostnameBlocking name default_port w))) /\
  lookup_hints = mkAddrinfo AI_PASSIVE AF_UNSPEC SOCK_STREAM 0 0%nat [].
Proof.
  intros Hsplit. split; [|reflexivity].
  destruct (LookupHostnameBlocking_cases name default_port flag host
              parsed_port Hsplit)
    as [[_ ->] | [(_ & _ & _ & ->) | (_ & port & _ & _ & ->)]];
    try (rewrite done_without_result, trace_since_refl; constructor).
  destruct (resolve_with_port_shape name host port w)
    as (calls & Htrace & _ & Hasks & _).
  erewrite trace_since_app by exact Htrace.
  apply Forall_app. split; [exact Hasks|].
  destruct (snd (fst _)); repeat constructor.
Qed.

(** X2: when the first call fails and the port is "http" or "https", the
    retry asks the OS in the state the first call left, and the retry alone
    decides the result: its return code is the one reported on failure, and
    the list it stored is the one translated on success.  The return code of
    the first call is not reported. *)
Theorem retry_alone_decides_the_result
    (name default_port : string) (w : World)
    (flag : bool) (host parsed_port port numeric : string) :
  SplitHostPort name = (flag, (host, parsed_port)) ->
  host <> "" ->
  port = (if empty parsed_port then default_port else parsed_port) ->
  (port = "http" /\ numeric = "80") \/ (port = "https" /\ numeric = "443") ->
  let o1 := os_getaddrinfo (c_str host) (c_str port) lookup_hints (w_os w) in
  gai_rc (fst o1) <> 0 ->
  let o2 := os_getaddrinfo (c_str host) numeric lookup_hints (snd o1) in
  w_os (snd (LookupHostnameBlocking name default_port w)) = snd o2 /\
  (gai_rc (fst o2) <> 0 ->
   fst (LookupHostnameBlocking name default_port w) =
     Err (grpc_error_to_absl_status
            (getaddrinfo_error (gai_rc (fst o2)) name))) /\
  (gai_rc (fst o2) = 0 ->
   forall entries,
     gai_res (fst o2) = Some entries ->
     fst (LookupHostnameBlocking name default_port w) =
       Ok (map resolved_address_of entries)).
Proof.
  intros Hsplit Hhost Hport Hsvc o1 Hrc1 o2.
  assert (Hne : port <> "") by (destruct Hsvc as [[-> _] | [-> _]]; discriminate).
  rewrite (LookupHostnameBlocking_resolves name default_port flag host
             parsed_port port Hsplit Hhost Hport Hne).
  rewrite resolve_with_port_run; cbv zeta.
  rewrite getaddrinfo_with_retry_run; cbv zeta. fold o1.
  apply Z.eqb_neq in Hrc1. rewrite Hrc1.
  assert (Hretry :
    (if String.eqb port "http" then
       getaddrinfo (c_str host) "80" lookup_hints
         match gai_res (fst o1) with Some stored => stored | None => [] end
         (mkWorld (snd o1) (w_pending w)
            (w_trace w ++ [EvGetaddrinfo (c_str host) (c_str port)
                             lookup_hints (fst o1)]))
     else if String.eqb port "https" then
       getaddrinfo (c_str host) "443" lookup_hints
         match gai_res (fst o1) with Some stored => stored | None => [] end
         (mkWorld (snd o1) (w_pending w)
            (w_trace w ++ [EvGetaddrinfo (c_str host) (c_str port)
                             lookup_hints (fst o1)]))
     else
       ((gai_rc (fst o1),
         match gai_res (fst o1) with Some stored => stored | None => [] end),
        mkWorld (snd o1) (w_pending w)
          (w_trace w ++ [EvGetaddrinfo (c_str host) (c_str port)
                           lookup_hints (fst o1)]))) =
    getaddrinfo (c_str host) numeric lookup_hints
      match gai_res (fst o1) with Some stored => stored | None => [] end
      (mkWorld (snd o1) (w_pending w)
         (w_trace w ++ [EvGetaddrinfo (c_str host) (c_str port)
                          lookup_hints (fst o1)]))).
  { destruct Hsvc as [[-> ->] | [-> ->]]; reflexivity. }
  rewrite Hretry, getaddrinfo_run; cbv zeta. cbn [fst snd w_os]. fold o2.
  split; [|split].
  - break_if; rewrite done_run; break_list_match; reflexivity.
  - intros Hrc2. apply Z.eqb_neq in Hrc2. rewrite Hrc2, done_run.
    reflexivity.
  - intros Hrc2 entries Hstored. rewrite Hrc2, Hstored. cbn [Z.eqb].
    rewrite done_run, fill_addrs_map. reflexivity.
Qed.

(** X3: the events of a lookup come after the events that were there, and
    are calls of [getaddrinfo] followed by at most one [freeaddrinfo]: once
    the list is given back the OS is not asked again.  A lookup calls no
    callback and hands nothing to the event engine. *)
Theorem lookup_asks_then_frees_and_does_nothing_else
    (name default_port : string) (w : World) :
  let w' := snd (LookupHostnameBlocking name default_port w) in
  exists calls frees,
    w_trace w' = w_trace w ++ calls ++ frees /\
    forallb is_getaddrinfo calls = true /\
    forallb is_freeaddrinfo frees = true /\
    (length frees <= 1)%nat /\
    callbacks (trace_since w w') = [] /\
    w_pending w' = w_pending w.
Proof.
  intros w'. subst w'.
  destruct (SplitHostPort name) as [flag [host parsed_port]] eqn:Hsplit.
  destruct (LookupHostnameBlocking_cases name default_port flag host
              parsed_port Hsplit)
    as [[_ ->] | [(_ & _ & _ & ->) | (_ & port & _ & _ & ->)]];
    try solve [ exists [], []; rewrite done_without_result, trace_since_refl;
                simpl; rewrite app_nil_r; repeat split; auto ].
  destruct (resolve_with_port_shape name host port w)
    as (calls & Htrace & Hcalls & _ & Hpending).
  exists calls. eexists. split; [exact Htrace|].
  split; [exact Hcalls|].
  erewrite trace_since_app by exact Htrace.
  unfold callbacks. rewrite filter_app. fold (callbacks calls).
  rewrite (callbacks_of_calls calls Hcalls).
  destruct (snd (fst _)); simpl; auto.
Qed.

(** X4: [freeaddrinfo] is never called with a null list; and when a lookup
    succeeds, the list it gives back is the very list whose entries it
    copied (none when that list is null). *)
Theorem the_list_given_back_is_the_list_copied
    (name default_port : string) (w : World) :
  let d := trace_since w (snd (LookupHostnameBlocking name default_port w)) in
  Forall (fun res => res <> []) (released d) /\
  forall addresses,
    fst (LookupHostnameBlocking name default_port w) = Ok addresses ->
    exists entries,
      addresses = map resolved_address_of entries /\
      released d = match entries with
                   | [] => []
                   | _ :: _ => [entries]
                   end.
Proof.
  intros d. subst d.
  destruct (SplitHostPort name) as [flag [host parsed_port]] eqn:Hsplit.
  destruct (LookupHostnameBlocking_cases name default_port flag host
              parsed_port Hsplit)
    as [[_ ->] | [(_ & _ & _ & ->) | (_ & port & _ & _ & ->)]];
    try (rewrite done_without_result, trace_since_refl, done_run; simpl;
         split; [constructor | discriminate]).
  destruct (resolve_with_port_shape name host port w)
    as (calls & Htrace & Hcalls & _ & _).
  erewrite trace_since_app by exact Htrace.
  rewrite released_app, (released_of_calls calls Hcalls). cbn [app].
  rewrite resolve_with_port_run; cbv zeta.
  destruct (snd (fst (getaddrinfo_with_retry host port lookup_hints w)))
    as [|entry next] eqn:Hresult; simpl released.
  - split; [constructor|]. intros addresses.
    break_if; rewrite done_run; cbn; [|discriminate].
    intros [= <-]. exists []. auto.
  - split; [repeat constructor; discriminate|]. intros addresses.
    break_if; rewrite done_run; cbn -[fill_addrs]; [|discriminate].
    intros [= <-]. exists (entry :: next).
    rewrite fill_addrs_map. auto.
Qed.

(** X5: [default_port] matters only to a name with a host and without a
    port: when the parse yields an empty host or a non-empty port, two
    lookups of the name with different default ports do the same. *)
Theorem default_port_is_ignored_unless_the_port_is_missing
    (name : string) (flag : bool) (host parsed_port : string) :
  SplitHostPort name = (flag, (host, parsed_port)) ->
  host = "" \/ parsed_port <> "" ->
  forall (default_port other_default : string) (w : World),
    LookupHostnameBlocking name default_port w =
    LookupHostnameBlocking name other_default w.
Proof.
  intros Hsplit Hcase default_port other_default w.
  destruct (empty host) eqn:Hhost.
  - apply empty_true_iff in Hhost.
    rewrite !LookupHostnameBlocking_unparsed by (now rewrite Hsplit).
    reflexivity.
  - apply empty_false_iff in Hhost.
    destruct Hcase as [Hempty | Hparsed]; [contradiction|].
    rewrite !(LookupHostnameBlocking_parsed name _ flag host parsed_port
                Hsplit Hhost).
    apply empty_false_iff in Hparsed. now rewrite Hparsed.
Qed.

(** X6: a lookup fails in three ways only, and each failure carries the
    target string: the status returned is the conversion of a non-OK error
    that is "unparseable host:port", "no port in name", or the
    [getaddrinfo] error for a non-zero return code, with [name] as its
    target address. *)
Theorem every_failure_carries_the_target
    (name default_port : string) (w : World) (st : Status) :
  fst (LookupHostnameBlocking name default_port w) = Err st ->
  exists err,
    st = grpc_error_to_absl_status err /\
    Status_ok err = false /\
    grpc_error_get_str err kTargetAddress = Some name /\
    (err = grpc_error_set_str (GRPC_ERROR_CREATE "unparseable host:port")
             kTargetAddress name \/
     err = grpc_error_set_str (GRPC_ERROR_CREATE "no port in name")
             kTargetAddress name \/
     exists s, s <> 0 /\ err = getaddrinfo_error s name).
Proof.
  destruct (SplitHostPort name) as [flag [host parsed_port]] eqn:Hsplit.
  destruct (LookupHostnameBlocking_cases name default_port flag host
              parsed_port Hsplit)
    as [[_ ->] | [(_ & _ & _ & ->) | (_ & port & _ & _ & ->)]].
  - rewrite done_run. cbn. intros [= <-]. eexists. repeat split. auto.
  - rewrite done_run. cbn. intros [= <-]. eexists. repeat split. auto.
  - rewrite resolve_with_port_run; cbv zeta.
    destruct (fst (fst (getaddrinfo_with_retry host port lookup_hints w)) =? 0)
      eqn:Hs; rewrite done_run; cbn -[fill_addrs]; [discriminate|].
    intros [= <-]. apply Z.eqb_neq in Hs.
    eexists. repeat split. right; right. eexists. split; [exact Hs|].
    reflexivity.
Qed.

(** *** Further properties of the asynchronous entry points *)

(** Running the closure of [NativeDNSRequest]: the blocking lookup of the
    registered resolver, then the callback. *)
Lemma run_work_item_request (resolver : DNSResolver)
    (name default_port : string) (on_done : Callback) (w : World) :
  let lookup :=
    DNSResolver_LookupHostnameBlocking resolver name default_port w in
  run_work_item resolver (NativeDNSRequestItem name default_port on_done) w =
    (tt, mkWorld (w_os (snd lookup)) (w_pending (snd lookup))
           (w_trace (snd lookup)
              ++ [EvAddressesCallback on_done (fst lookup)])).
Proof.
  intros lookup. unfold run_work_item, bind. fold lookup.
  destruct lookup. reflexivity.
Qed.

(** X7: a name that cannot be looked up (empty host, or no port and no
    default port) is not refused by [LookupHostname]: the call returns
    [kNullHandle] and leaves the trace as it is; when the work item runs,
    [on_done] is called, without any call into the OS, with a non-OK status
    that has the message of the failure and the target string as its target
    address. *)
Theorem early_failures_are_delivered_to_the_callback
    (on_done : Callback) (name default_port : string) (timeout : Z)
    (interested_parties : option nat) (name_server : string) (w : World)
    (flag : bool) (host parsed_port : string) :
  SplitHostPort name = (flag, (host, parsed_port)) ->
  host = "" \/ (parsed_port = "" /\ default_port = "") ->
  let native := mkDNSResolver LookupHostnameBlocking in
  let item := NativeDNSRequestItem name default_port on_done in
  let scheduled :=
    LookupHostname on_done name default_port timeout interested_parties
      name_server w in
  fst scheduled = kNullHandle /\
  w_trace (snd scheduled) = w_trace w /\
  w_os (snd scheduled) = w_os w /\
  forall w1 : World,
  exists st,
    run_work_item native item w1 =
      (tt, mkWorld (w_os w1) (w_pending w1)
             (w_trace w1 ++ [EvAddressesCallback on_done (Err st)])) /\
    Status_ok st = false /\
    grpc_error_get_str st kTargetAddress = Some name /\
    status_message st =
      (if empty host then "unparseable host:port" else "no port in name").
Proof.
  intros Hsplit Hcase native item scheduled.
  repeat (split; [reflexivity|]).
  intros w1. unfold item, native. rewrite run_work_item_request; cbv zeta.
  cbn [DNSResolver_LookupHostnameBlocking].
  destruct (LookupHostnameBlocking_cases name default_port flag host
              parsed_port Hsplit)
    as [[Hhost ->] | [(Hhost & _ & _ & ->) | (Hhost & port & Hne & Hport & _)]].
  - rewrite done_run. subst host. eexists. repeat split.
  - rewrite done_run. apply empty_false_iff in Hhost. rewrite Hhost.
    eexists. repeat split.
  - exfalso. destruct Hcase as [Hempty | [-> ->]]; [contradiction|].
    now apply Hne.
Qed.

(** X8: whatever its kind, a work item that runs calls the callback it
    captured, once, calls no other callback, and hands no new work item to
    the event engine. *)
Theorem every_work_item_calls_its_callback_once
    (item : WorkItem) (w : World) :
  let native := mkDNSResolver LookupHostnameBlocking in
  let w' := snd (run_work_item native item w) in
  map event_callback (callbacks (trace_since w w')) =
    [Some (WorkItem_callback item)] /\
  w_pending w' = w_pending w.
Proof.
  intros native w'. subst w'. destruct item as [name default_port cb|cb|cb].
  - unfold native. rewrite run_work_item_request; cbv zeta.
    cbn [DNSResolver_LookupHostnameBlocking snd w_pending].
    destruct (LookupHostnameBlocking_trace name default_port w)
      as (d & Htrace & Hcb & Hpending).
    erewrite trace_since_app
      by (cbn [w_trace]; rewrite Htrace, <- app_assoc; reflexivity).
    unfold callbacks in *. rewrite filter_app, Hcb. split; [reflexivity|].
    exact Hpending.
  - cbn [run_work_item snd]. unfold call_addresses_callback, emit.
    cbn [snd w_pending]. settle_trace. split; reflexivity.
  - cbn [run_work_item snd]. unfold call_string_callback, emit.
    cbn [snd w_pending]. settle_trace. split; reflexivity.
Qed.

(** X9: two requests do not mix: when their work items run one after the
    other, the callbacks called are the first request's, with the result of
    the lookup of its own name, then the second request's, with the result
    of the lookup of its own name in the world the first run left. *)
Theorem two_requests_do_not_mix
    (name1 default_port1 name2 default_port2 : string)
    (on_done1 on_done2 : Callback) (w : World) :
  let native := mkDNSResolver LookupHostnameBlocking in
  let w1 :=
    snd (run_work_item native
           (NativeDNSRequestItem name1 default_port1 on_done1) w) in
  let w2 :=
    snd (run_work_item native
           (NativeDNSRequestItem name2 default_port2 on_done2) w1) in
  callbacks (trace_since w w2) =
    [EvAddressesCallback on_done1
       (fst (LookupHostnameBlocking name1 default_port1 w));
     EvAddressesCallback on_done2
       (fst (LookupHostnameBlocking name2 default_port2 w1))].
Proof.
  intros native w1 w2. subst w2. unfold native in *.
  rewrite run_work_item_request; cbv zeta.
  cbn [DNSResolver_LookupHostnameBlocking snd].
  destruct (LookupHostnameBlocking_trace name2 default_port2 w1)
    as (d2 & Htrace2 & Hcb2 & _).
  assert (Hw1 : exists d1,
    w_trace w1 =
      w_trace w ++ d1
        ++ [EvAddressesCallback on_done1
              (fst (LookupHostnameBlocking name1 default_port1 w))] /\
    callbacks d1 = []).
  { subst w1. rewrite run_work_item_request; cbv zeta.
    cbn [DNSResolver_LookupHostnameBlocking snd w_trace].
    destruct (LookupHostnameBlocking_trace name1 default_port1 w)
      as (d1 & Htrace1 & Hcb1 & _).
    exists d1. rewrite Htrace1, <- app_assoc. auto. }
  destruct Hw1 as (d1 & Htrace1 & Hcb1).
  erewrite trace_since_app
    by (cbn [w_trace]; rewrite Htrace2, Htrace1, <- !app_assoc; reflexivity).
  unfold callbacks in *. rewrite !filter_app, Hcb1, Hcb2. reflexivity.
Qed.

End Properties.

(** ** The properties on the sample platform *)


(** The parser of the sample platform on a few targets. *)
Example sample_SplitHostPort :
  map Sample.SplitHostPort
    ["host"; "host:80"; "[::1]:443"; "::1"; ":80"; "host:"; "[::1"] =
    [(true, ("host", "")); (true, ("host", "80")); (true, ("::1", "443"));
     (true, ("::1", "")); (true, ("", "80")); (true, ("host", ""));
     (false, ("", ""))].
Proof. reflexivity. Qed.

(** A host with no address: success, no address, and nothing to give back. *)
Example sample_lookup_without_entries :
  @NativeDNSResolver.LookupHostnameBlocking Sample.platform
    "void.test:1" "" Sample.w0 =
    (Ok [],
     @mkWorld Sample.platform 1%nat []
       [EvGetaddrinfo "void.test" "1" lookup_hints (mkReply 0 (Some []))]).
Proof. reflexivity. Qed.

(** An asynchronous lookup, from the call to the callback: nothing happens
    before the event engine runs the work item. *)
Example sample_async_lookup :
  let '(handle, w1) :=
    @NativeDNSResolver.LookupHostname Sample.platform 7%nat
      "nowhere.test" "80" 1000 None "8.8.8.8" Sample.w0 in
  handle = mkHandle 0 0 /\
  w_trace w1 = [] /\
  w_pending w1 = [NativeDNSRequestItem "nowhere.test" "80" 7%nat] /\
  callbacks
    (w_trace
       (snd (@NativeDNSResolver.run_work_item Sample.platform Sample.resolver
               (NativeDNSRequestItem "nowhere.test" "80" 7%nat) w1))) =
    [EvAddressesCallback 7%nat
       (Err (@NativeDNSResolver.getaddrinfo_error Sample.platform
               Sample.EAI_NONAME "nowhere.test"))].
Proof. repeat split. Qed.

(** "localhost:http": the sample OS refuses the service name "http", and the
    lookup asks again with "80". *)
Lemma C1_witness :
  Sample.SplitHostPort "localhost:http" = (true, ("localhost", "http")) /\
  gai_rc (fst (Sample.os_getaddrinfo "localhost" "http" lookup_hints 0%nat))
    = Sample.EAI_SERVICE /\
  gai_calls
    (trace_since Sample.w0
       (snd (@NativeDNSResolver.LookupHostnameBlocking Sample.platform
               "localhost:http" "" Sample.w0))) =
    [("localhost", "http"); ("localhost", "80")].
Proof.
  split; [reflexivity|]. split; [reflexivity|].
  destruct (@C1_single_retry_for_well_known_service Sample.platform
              "localhost:http" "" Sample.w0) as [_ Hcases].
  destruct (Hcases true "localhost" "http" "http") as (_ & Hhttp & _).
  - reflexivity.
  - discriminate.
  - reflexivity.
  - discriminate.
  - apply Hhttp; [vm_compute; discriminate | reflexivity].
Defined.

(** The claim C2 as stated fails on the empty target: its parse yields an
    empty port, [default_port] is empty, and the lookup fails with
    "unparseable host:port", not with "no port in name". *)
Lemma C2_counterexample :
  snd (snd (Sample.SplitHostPort "")) = "" /\
  fst (@NativeDNSResolver.LookupHostnameBlocking Sample.platform
         "" "" Sample.w0) =
    Err (grpc_error_set_str (GRPC_ERROR_CREATE "unparseable host:port")
           kTargetAddress "") /\
  fst (@NativeDNSResolver.LookupHostnameBlocking Sample.platform
         "" "" Sample.w0) <>
    Err (grpc_error_set_str (GRPC_ERROR_CREATE "no port in name")
           kTargetAddress "").
Proof.
  split; [reflexivity|]. split; [reflexivity|]. vm_compute. discriminate.
Qed.

(** "localhost" without a default port, and with the default port "443". *)
Lemma C2_witness :
  Sample.SplitHostPort "localhost" = (true, ("localhost", "")) /\
  (exists st,
     @NativeDNSResolver.LookupHostnameBlocking Sample.platform
       "localhost" "" Sample.w0 = (Err st, Sample.w0) /\
     Status_ok st = false /\
     status_message st = "no port in name" /\
     grpc_error_get_str st kTargetAddress = Some "localhost") /\
  hd_error
    (gai_calls
       (trace_since Sample.w0
          (snd (@NativeDNSResolver.LookupHostnameBlocking Sample.platform
                  "localhost" "443" Sample.w0)))) =
    Some ("localhost", "443").
Proof.
  split; [reflexivity|]. split.
  - destruct (@C2_missing_port_after_host_check Sample.platform
                "localhost" "" Sample.w0 true "localhost")
      as [Hmissing _]; [reflexivity | discriminate |].
    destruct (Hmissing eq_refl) as (st & Hrun & Hok & Hmsg & Htarget & _).
    exists st. auto.
  - destruct (@C2_missing_port_after_host_check Sample.platform
                "localhost" "443" Sample.w0 true "localhost")
      as [_ Hadopted]; [reflexivity | discriminate |].
    apply Hadopted. discriminate.
Defined.

(** "[::1", a bracket that is never closed. *)
Lemma C3_witness :
  fst (snd (Sample.SplitHostPort "[::1")) = "" /\
  exists st,
    @NativeDNSResolver.LookupHostnameBlocking Sample.platform
      "[::1" "80" Sample.w0 = (Err st, Sample.w0) /\
    Status_ok st = false /\
    status_message st = "unparseable host:port" /\
    grpc_error_get_str st kTargetAddress = Some "[::1".
Proof.
  split; [reflexivity|].
  destruct (@C3_unparseable_target Sample.platform "[::1" "80" Sample.w0
              eq_refl)
    as (st & Hrun & Hok & Hmsg & Htarget & _).
  exists st. auto.
Defined.

(** "dual.test:80": two entries, an IPv6 and an IPv4 address. *)
Lemma C4_witness :
  fst (Sample.os_getaddrinfo "dual.test" "80" lookup_hints 0%nat) =
    mkReply 0 (Some [Sample.loopback6 x00 x50; Sample.loopback4 x00 x50]) /\
  exists addresses,
    fst (@NativeDNSResolver.LookupHostnameBlocking Sample.platform
           "dual.test:80" "" Sample.w0) = Ok addresses /\
    length addresses = 2%nat /\
    Forall2 copies
      [Sample.loopback6 x00 x50; Sample.loopback4 x00 x50] addresses.
Proof.
  split; [reflexivity|].
  destruct (@C4_success_copies_every_entry Sample.platform
              "dual.test:80" "" Sample.w0 true "dual.test" "80" "80"
              [Sample.loopback6 x00 x50; Sample.loopback4 x00 x50])
    as (addresses & Hok & Hlen & Hcopies & _).
  - reflexivity.
  - discriminate.
  - reflexivity.
  - discriminate.
  - reflexivity.
  - reflexivity.
  - exists addresses. split; [exact Hok|]. split; [exact Hlen|exact Hcopies].
Defined.

(** "host:http" on the failing platform: the first call fails with
    [EAI_AGAIN], the retry with [EAI_NONAME], which is reported. *)
Lemma C5_witness :
  gai_rc (fst (Failing.os_getaddrinfo "host" "80" lookup_hints 1%nat))
    = Sample.EAI_NONAME /\
  exists st,
    fst (@NativeDNSResolver.LookupHostnameBlocking Failing.platform
           "host:http" "" Failing.w0) = Err st /\
    status_message st = "Name or service not known" /\
    grpc_error_get_int st kErrorNo = Some Sample.EAI_NONAME /\
    grpc_error_get_str st kOsError = Some "Name or service not known" /\
    grpc_error_get_str st kSyscall = Some "getaddrinfo" /\
    grpc_error_get_str st kTargetAddress = Some "host:http".
Proof.
  split; [reflexivity|].
  destruct (@C5_os_failure_is_reported Failing.platform
              "host:http" "" Failing.w0 true "host" "http" "http")
    as (st & Hrun & _ & Hmsg & Hno & Hos & Hsys & Htarget).
  - reflexivity.
  - discriminate.
  - reflexivity.
  - discriminate.
  - vm_compute; discriminate.
  - exists st. repeat split; assumption.
Defined.

(** "localhost" with the default port "https". *)
Lemma C8_witness :
  Sample.SplitHostPort "localhost" = (true, ("localhost", "")) /\
  gai_calls
    (trace_since Sample.w0
       (snd (@NativeDNSResolver.LookupHostnameBlocking Sample.platform
               "localhost" "https" Sample.w0))) =
    [("localhost", "https"); ("localhost", "443")].
Proof.
  split; [reflexivity|].
  apply (@C8_retry_applies_to_default_port Sample.platform
           "localhost" "https" Sample.w0 true "localhost").
  - reflexivity.
  - discriminate.
  - right; reflexivity.
  - vm_compute; discriminate.
Defined.



(** ** The further properties on the sample platforms *)

(** "localhost:http": both calls are for "localhost", with the hints. *)
Lemma every_getaddrinfo_call_is_for_the_host_with_the_hints_witness :
  Sample.SplitHostPort "localhost:http" = (true, ("localhost", "http")) /\
  Forall (asks_for "localhost" lookup_hints)
    (trace_since Sample.w0
       (snd (@NativeDNSResolver.LookupHostnameBlocking Sample.platform
               "localhost:http" "" Sample.w0))).
Proof.
  split; [reflexivity|].
  apply (@every_getaddrinfo_call_is_for_the_host_with_the_hints
           Sample.platform "localhost:http" "" Sample.w0 true "localhost"
           "http").
  reflexivity.
Defined.

(** "host:http" on the failing platform: the first call fails with
    [EAI_AGAIN], the retry with [EAI_NONAME], and the error reports the
    latter. *)
Lemma retry_alone_decides_the_result_witness :
  gai_rc (fst (Failing.os_getaddrinfo "host" "http" lookup_hints 0%nat))
    = Failing.EAI_AGAIN /\
  gai_rc (fst (Failing.os_getaddrinfo "host" "80" lookup_hints 1%nat))
    = Sample.EAI_NONAME /\
  fst (@NativeDNSResolver.LookupHostnameBlocking Failing.platform
         "host:http" "" Failing.w0) =
    Err (@NativeDNSResolver.getaddrinfo_error Failing.platform
           Sample.EAI_NONAME "host:http").
Proof.
  split; [reflexivity|]. split; [reflexivity|].
  destruct (@retry_alone_decides_the_result Failing.platform
              "host:http" "" Failing.w0 true "host" "http" "http" "80")
    as (_ & Hfail & _).
  - reflexivity.
  - discriminate.
  - reflexivity.
  - left; split; reflexivity.
  - vm_compute; discriminate.
  - apply Hfail. vm_compute; discriminate.
Defined.

(** "dual.test:80": the two entries that were copied are given back. *)
Lemma the_list_given_back_is_the_list_copied_witness :
  exists entries,
    [NativeDNSResolver.resolved_address_of (Sample.loopback6 x00 x50);
     NativeDNSResolver.resolved_address_of (Sample.loopback4 x00 x50)] =
      map NativeDNSResolver.resolved_address_of entries /\
    released
      (trace_since Sample.w0
         (snd (@NativeDNSResolver.LookupHostnameBlocking Sample.platform
                 "dual.test:80" "" Sample.w0))) =
      match entries with
      | [] => []
      | _ :: _ => [entries]
      end.
Proof.
  destruct (@the_list_given_back_is_the_list_copied Sample.platform
              "dual.test:80" "" Sample.w0) as [_ Hcopied].
  apply Hcopied. reflexivity.
Defined.

(** "localhost:80": the default port plays no part. *)
Lemma default_port_is_ignored_unless_the_port_is_missing_witness :
  Sample.SplitHostPort "localhost:80" = (true, ("localhost", "80")) /\
  @NativeDNSResolver.LookupHostnameBlocking Sample.platform
    "localhost:80" "443" Sample.w0 =
  @NativeDNSResolver.LookupHostnameBlocking Sample.platform
    "localhost:80" "" Sample.w0.
Proof.
  split; [reflexivity|].
  apply (@default_port_is_ignored_unless_the_port_is_missing Sample.platform
           "localhost:80" true "localhost" "80").
  - reflexivity.
  - right; discriminate.
Defined.

(** "nowhere.test:80": the failure carries the target. *)
Lemma every_failure_carries_the_target_witness :
  exists err,
    @NativeDNSResolver.getaddrinfo_error Sample.platform
      Sample.EAI_NONAME "nowhere.test:80" = err /\
    Status_ok err = false /\
    grpc_error_get_str err kTargetAddress = Some "nowhere.test:80".
Proof.
  destruct (@every_failure_carries_the_target Sample.platform
              "nowhere.test:80" "" Sample.w0
              (@NativeDNSResolver.getaddrinfo_error Sample.platform
                 Sample.EAI_NONAME "nowhere.test:80"))
    as (err & Hconv & Hok & Htarget & _).
  - reflexivity.
  - exists err. auto.
Defined.

(** The empty name, asked for asynchronously. *)
Lemma early_failures_are_delivered_to_the_callback_witness :
  Sample.SplitHostPort "" = (true, ("", "")) /\
  exists st,
    @NativeDNSResolver.run_work_item Sample.platform Sample.resolver
      (NativeDNSRequestItem "" "80" 7%nat) Sample.w0 =
      (tt, @mkWorld Sample.platform 0%nat []
             [EvAddressesCallback 7%nat (Err st)]) /\
    Status_ok st = false /\
    grpc_error_get_str st kTargetAddress = Some "" /\
    status_message st = "unparseable host:port".
Proof.
  split; [reflexivity|].
  destruct (@early_failures_are_delivered_to_the_callback Sample.platform
              7%nat "" "80" 1000 None "" Sample.w0 true "" "")
    as (_ & _ & _ & Hrun).
  - reflexivity.
  - left; reflexivity.
  - destruct (Hrun Sample.w0) as (st & Hitem & Hok & Htarget & Hmessage).
    exists st. auto.
Defined.
